(** * UART driver: a shallow embedding of UARTImplementation.cpp

    The class [UART] becomes a record of its data members, and every
    member function a computation in a small monad that threads the
    object through, so that an exception leaves behind exactly the
    mutations made before the [throw].  The mutex [mtx] makes every
    member function one atomic step; the only place where the lock is
    released in the middle of a call is [cv.wait] in [read], which is
    modelled by the outcome [Blocks] and the continuation [read_wake]. *)

From Stdlib Require Import ZArith List String Bool Lia.
From Stdlib.Strings Require Import Byte.
Import ListNotations.
Open Scope string_scope.
Open Scope list_scope.
Open Scope Z_scope.

(** ** Enumerations *)

(** [enum class UARTConfig { BAUD_RATE, DATA_BITS, PARITY, STOP_BITS }].
    The underlying type is [int] and [configure] has a [default:] branch
    for values that are none of the four enumerators, so a parameter is
    kept as its integer value. *)
Definition UARTConfig := Z.
Definition BAUD_RATE : UARTConfig := 0.
Definition DATA_BITS : UARTConfig := 1.
Definition PARITY : UARTConfig := 2.
Definition STOP_BITS : UARTConfig := 3.

(** [enum class UARTState { CLOSED, OPEN, CONFIGURED }]: the member
    [state] is private and only ever assigned an enumerator. *)
Inductive UARTState : Type := CLOSED | OPEN | CONFIGURED.

(** [enum class CommMethod { POLLING, INTERRUPT, DMA }]. *)
Inductive CommMethod : Type := POLLING | INTERRUPT | DMA.

Definition UARTState_eqb (a b : UARTState) : bool :=
  match a, b with
  | CLOSED, CLOSED | OPEN, OPEN | CONFIGURED, CONFIGURED => true
  | _, _ => false
  end.

Definition CommMethod_eqb (a b : CommMethod) : bool :=
  match a, b with
  | POLLING, POLLING | INTERRUPT, INTERRUPT | DMA, DMA => true
  | _, _ => false
  end.

(** ** Exceptions: the two classes of <stdexcept> the driver throws,
    with the message given to the constructor. *)
Inductive exn : Type :=
| runtime_error (what : string)
| invalid_argument (what : string).

(** ** The object *)

(** Data members of [class UART], in declaration order ([mtx] and [cv]
    carry no data).  The constructor's initialiser list leaves
    [commMethod] out, so it holds no determinate value until [open]
    assigns it: [None] stands for that. *)
Record UART : Type := mkUART {
  uartId : Z;
  state : UARTState;
  baudRate : Z;
  dataBits : Z;
  parity : bool;
  stopBits : Z;
  commMethod : option CommMethod;
  dataReady : bool;
  readBuffer : list byte
}.

Definition set_state (s : UARTState) (u : UART) : UART :=
  mkUART (uartId u) s (baudRate u) (dataBits u) (parity u) (stopBits u)
         (commMethod u) (dataReady u) (readBuffer u).
Definition set_baudRate (v : Z) (u : UART) : UART :=
  mkUART (uartId u) (state u) v (dataBits u) (parity u) (stopBits u)
         (commMethod u) (dataReady u) (readBuffer u).
Definition set_dataBits (v : Z) (u : UART) : UART :=
  mkUART (uartId u) (state u) (baudRate u) v (parity u) (stopBits u)
         (commMethod u) (dataReady u) (readBuffer u).
Definition set_parity (v : bool) (u : UART) : UART :=
  mkUART (uartId u) (state u) (baudRate u) (dataBits u) v (stopBits u)
         (commMethod u) (dataReady u) (readBuffer u).
Definition set_stopBits (v : Z) (u : UART) : UART :=
  mkUART (uartId u) (state u) (baudRate u) (dataBits u) (parity u) v
         (commMethod u) (dataReady u) (readBuffer u).
Definition set_commMethod (m : CommMethod) (u : UART) : UART :=
  mkUART (uartId u) (state u) (baudRate u) (dataBits u) (parity u) (stopBits u)
         (Some m) (dataReady u) (readBuffer u).
Definition set_dataReady (b : bool) (u : UART) : UART :=
  mkUART (uartId u) (state u) (baudRate u) (dataBits u) (parity u) (stopBits u)
         (commMethod u) b (readBuffer u).
Definition set_readBuffer (l : list byte) (u : UART) : UART :=
  mkUART (uartId u) (state u) (baudRate u) (dataBits u) (parity u) (stopBits u)
         (commMethod u) (dataReady u) l.

(** ** Member functions as computations on the object *)

(** How a call ends: it returns a value, leaves by an exception, is
    suspended in [cv.wait] with the lock released, or has no defined
    behaviour. *)
Inductive outcome (A : Type) : Type :=
| Returns (a : A)
| Throws (e : exn)
| Blocks
| Undefined.
Arguments Returns {A} a.
Arguments Throws {A} e.
Arguments Blocks {A}.
Arguments Undefined {A}.

Definition M (A : Type) : Type := UART -> outcome A * UART.

Definition ret {A} (a : A) : M A := fun u => (Returns a, u).

Definition bind {A B} (m : M A) (k : A -> M B) : M B :=
  fun u =>
    match m u with
    | (Returns a, u') => k a u'
    | (Throws e, u') => (Throws e, u')
    | (Blocks, u') => (Blocks, u')
    | (Undefined, u') => (Undefined, u')
    end.

Declare Scope uart_scope.
Delimit Scope uart_scope with uart.
Notation "x <- m ;; k" := (bind m (fun x => k))
  (at level 61, m at next level, right associativity) : uart_scope.
Notation "m ;; k" := (bind m (fun _ => k))
  (at level 61, right associativity) : uart_scope.
Open Scope uart_scope.

Definition throw {A} (e : exn) : M A := fun u => (Throws e, u).
Definition undefined {A} : M A := fun u => (Undefined, u).
Definition gets {A} (f : UART -> A) : M A := fun u => (Returns (f u), u).
Definition modify (f : UART -> UART) : M unit := fun u => (Returns tt, f u).
Definition when (b : bool) (m : M unit) : M unit := if b then m else ret tt.

(** Reading [commMethod]: an indeterminate value has no defined use. *)
Definition load_commMethod : M CommMethod :=
  fun u => match commMethod u with
           | Some m => (Returns m, u)
           | None => (Undefined, u)
           end.

(** [cv.wait(lock, pred)] is [while (!pred()) wait(lock);]: it goes on
    when the predicate holds and otherwise suspends the caller. *)
Definition cv_wait (pred : UART -> bool) : M unit :=
  fun u => if pred u then (Returns tt, u) else (Blocks, u).

(** [static_cast<int>] of a [size_t], for a 32-bit [int]. *)
Definition INT_MAX : Z := 2147483647.
Definition static_cast_int (z : Z) : Z :=
  (z + 2147483648) mod 4294967296 - 2147483648.

(** [UART::UART(int id)] *)
Definition constructor (id : Z) : UART :=
  mkUART id CLOSED 9600 8 false 1 None false [].

(** [void UART::configure(UARTConfig config, int value)] *)
Definition configure (config : UARTConfig) (value : Z) : M unit :=
  st <- gets state ;;
  when (negb (UARTState_eqb st CLOSED))
       (throw (runtime_error "UART must be closed before configuration.")) ;;
  (if config =? BAUD_RATE then modify (set_baudRate value)
   else if config =? DATA_BITS then modify (set_dataBits value)
   else if config =? PARITY then modify (set_parity (negb (value =? 0)))
   else if config =? STOP_BITS then modify (set_stopBits value)
   else throw (invalid_argument "Invalid UART configuration.")) ;;
  modify (set_state CONFIGURED).

(** [void UART::open(CommMethod method)].  The detached thread started
    for INTERRUPT and DMA is the producer; it changes no data member
    here, its deliveries are the events [Deliver] further down. *)
Definition open (method : CommMethod) : M unit :=
  st <- gets state ;;
  when (UARTState_eqb st OPEN)
       (throw (runtime_error "UART is already open.")) ;;
  when (negb (UARTState_eqb st CONFIGURED))
       (throw (runtime_error "UART must be configured before opening.")) ;;
  modify (set_state OPEN) ;;
  modify (set_commMethod method).

(** [void UART::close()] *)
Definition close : M unit :=
  st <- gets state ;;
  when (negb (UARTState_eqb st OPEN))
       (throw (runtime_error "UART is not open.")) ;;
  modify (set_state CLOSED).

(** [UART::~UART()] *)
Definition destructor : M unit :=
  st <- gets state ;;
  when (UARTState_eqb st OPEN) close.

(** Lines 139-144 of [read]: the drain after the wait.  The value is
    the returned count with the bytes copied to the caller's buffer.
    A negative count makes [readBuffer.begin() + bytesRead] undefined. *)
Definition read_drain (length : Z) : M (Z * list byte) :=
  buf <- gets readBuffer ;;
  let bytesRead := Z.min length (static_cast_int (Z.of_nat (List.length buf))) in
  if bytesRead <? 0 then undefined
  else
    modify (set_readBuffer (skipn (Z.to_nat bytesRead) buf)) ;;
    modify (set_dataReady false) ;;
    ret (bytesRead, firstn (Z.to_nat bytesRead) buf).

(** What a reader suspended at line 137 does each time it is woken: the
    predicate is evaluated again, and the drain follows when it holds.
    No other member is looked at again. *)
Definition read_wake (length : Z) : M (Z * list byte) :=
  cv_wait dataReady ;;
  read_drain length.

(** [int UART::read(char* buffer, int length)].  The POLLING branch has
    an empty body in the source. *)
Definition read (length : Z) : M (Z * list byte) :=
  st <- gets state ;;
  when (negb (UARTState_eqb st OPEN))
       (throw (runtime_error "UART is not open.")) ;;
  cm <- load_commMethod ;;
  (if CommMethod_eqb cm POLLING then ret tt else ret tt) ;;
  read_wake length.

(** [int UART::write(const char* data, int length)]: after the state
    check the body ends without a [return] statement, and flowing off
    the end of a function that returns [int] is undefined. *)
Definition write (data : list byte) (length : Z) : M Z :=
  st <- gets state ;;
  when (negb (UARTState_eqb st OPEN))
       (throw (runtime_error "UART is not open.")) ;;
  undefined.

(** The [try] block of [main], run on [UART uart(1)]: [sizeof(buffer)]
    is 10 and [strlen(data)] is 12. *)
Definition main_try : M unit :=
  configure BAUD_RATE 115200 ;;
  configure DATA_BITS 8 ;;
  configure PARITY 0 ;;
  configure STOP_BITS 1 ;;
  open INTERRUPT ;;
  _ <- read 10 ;;
  _ <- write (list_byte_of_string "Hello, UART!") 12 ;;
  close.

(** ** The producer *)

Definition producer_started (cm : option CommMethod) : bool :=
  match cm with
  | Some INTERRUPT | Some DMA => true
  | _ => false
  end.

(** Modelled from the spec: the receive-completion callback of the
    peripheral backend.  The source has only its frame, the loops
    [while (state == UARTState::OPEN)] of [asyncRead] and [dmaRead]
    (started by [open] for INTERRUPT and DMA) with a hardware TODO and
    the notification; what the hardware step does to the members is
    taken from the spec: under the lock the delivered bytes are
    appended to the receive buffer, and data-ready is signalled only
    after at least one byte was appended. *)
Definition backend_deliver (chunk : list byte) : M unit :=
  st <- gets state ;;
  cm <- gets commMethod ;;
  buf <- gets readBuffer ;;
  match chunk with
  | [] => ret tt
  | _ :: _ =>
      if UARTState_eqb st OPEN && producer_started cm
      then modify (set_readBuffer (buf ++ chunk)) ;; modify (set_dataReady true)
      else ret tt
  end.

(** ** Interleavings *)

(** The atomic steps other threads can observe: the calls of the public
    interface, the wake-up of a suspended reader and a delivery by the
    producer. *)
Inductive event : Type :=
| Configure (config : UARTConfig) (value : Z)
| Open (method : CommMethod)
| Close
| Read (length : Z)
| Wake (length : Z)
| Write (data : list byte) (length : Z)
| Deliver (chunk : list byte).

Definition after {A} (m : M A) (u : UART) : UART := snd (m u).

Definition exec (e : event) (u : UART) : UART :=
  match e with
  | Configure config value => after (configure config value) u
  | Open method => after (open method) u
  | Close => after close u
  | Read length => after (read length) u
  | Wake length => after (read_wake length) u
  | Write data length => after (write data length) u
  | Deliver chunk => after (backend_deliver chunk) u
  end.

Fixpoint run (es : list event) (u : UART) : UART :=
  match es with
  | [] => u
  | e :: es' => run es' (exec e u)
  end.

Definition is_Open (e : event) : bool :=
  match e with Open _ => true | _ => false end.

(** Bytes handed to callers by the reads of a schedule, and bytes the
    producer has put into the buffer, in the order of the schedule. *)
Definition bytes_out (e : event) (u : UART) : list byte :=
  match e with
  | Read length => match fst (read length u) with
                   | Returns (_, bs) => bs
                   | _ => []
                   end
  | Wake length => match fst (read_wake length u) with
                   | Returns (_, bs) => bs
                   | _ => []
                   end
  | _ => []
  end.

Definition bytes_in (e : event) (u : UART) : list byte :=
  match e with
  | Deliver chunk =>
      if UARTState_eqb (state u) OPEN && producer_started (commMethod u)
      then chunk else []
  | _ => []
  end.

Fixpoint consumed (es : list event) (u : UART) : list byte :=
  match es with
  | [] => []
  | e :: es' => bytes_out e u ++ consumed es' (exec e u)
  end.

Fixpoint produced (es : list event) (u : UART) : list byte :=
  match es with
  | [] => []
  | e :: es' => bytes_in e u ++ produced es' (exec e u)
  end.

(** ** Scenarios

    Objects reached from [UART uart(1)] by the first call of [main], an
    [open], and then the round trip of the spec: the backend delivers
    the two bytes 0x48 0x69. *)
Definition opened (method : CommMethod) : UART :=
  run [Configure BAUD_RATE 115200; Open method] (constructor 1).

Definition received : UART :=
  run [Deliver [x48; x69]] (opened INTERRUPT).

(** Invariant of the objects every schedule reaches: once open, the
    strategy has been assigned; [dataReady] is only set with bytes in
    the buffer. *)
Definition well_formed (u : UART) : Prop :=
  (state u = OPEN -> commMethod u <> None) /\
  (dataReady u = true -> readBuffer u <> []).

(** Objects to which no producer can deliver: the wait predicate of
    [read] is false and the driver is not open, or was opened for
    POLLING. *)
Definition starved (u : UART) : Prop :=
  dataReady u = false /\ (state u <> OPEN \/ commMethod u = Some POLLING).

(** The four enumerators of [UARTConfig]. *)
Definition recognized (config : UARTConfig) : Prop :=
  config = BAUD_RATE \/ config = DATA_BITS \/ config = PARITY \/ config = STOP_BITS.

(** ** The background threads *)

(** [cv.notify_one()] touches no data member; what the notified reader
    does is its own step, [Wake]. *)
Definition notify_one : M unit := ret tt.

(** One turn of the loop of [UART::asyncRead]: the test of
    [state == UARTState::OPEN] and, when it holds, the body.  The value
    tells whether the loop goes on. *)
Definition asyncRead_turn : M bool :=
  st <- gets state ;;
  if UARTState_eqb st OPEN then notify_one ;; ret true else ret false.

(** One turn of the loop of [UART::dmaRead]. *)
Definition dmaRead_turn : M bool :=
  st <- gets state ;;
  if UARTState_eqb st OPEN then notify_one ;; ret true else ret false.

(** Steps of all threads: the events above and the turns of the two
    loops. *)
Inductive step : Type :=
| Call (e : event)
| AsyncTurn
| DmaTurn.

Definition exec_step (s : step) (u : UART) : UART :=
  match s with
  | Call e => exec e u
  | AsyncTurn => after asyncRead_turn u
  | DmaTurn => after dmaRead_turn u
  end.

Fixpoint run_steps (ss : list step) (u : UART) : UART :=
  match ss with
  | [] => u
  | s :: ss' => run_steps ss' (exec_step s u)
  end.

Definition is_Close (e : event) : bool :=
  match e with Close => true | _ => false end.

Definition is_Deliver (e : event) : bool :=
  match e with Deliver _ => true | _ => false end.

Definition calls (p : event -> bool) (s : step) : bool :=
  match s with Call e => p e | _ => false end.

(** The steps whose code is in the source: all but the deliveries. *)
Definition in_source (s : step) : bool := negb (calls is_Deliver s).

(** How an event ends, without the value returned. *)
Definition forget {A} (o : outcome A) : outcome unit :=
  match o with
  | Returns _ => Returns tt
  | Throws e => Throws e
  | Blocks => Blocks
  | Undefined => Undefined
  end.

Definition ends (e : event) (u : UART) : outcome unit :=
  match e with
  | Configure config value => forget (fst (configure config value u))
  | Open method => forget (fst (open method u))
  | Close => forget (fst (close u))
  | Read length => forget (fst (read length u))
  | Wake length => forget (fst (read_wake length u))
  | Write data length => forget (fst (write data length u))
  | Deliver chunk => forget (fst (backend_deliver chunk u))
  end.

(** Two objects with the same four configuration fields. *)
Definition same_config (a b : UART) : Prop :=
  baudRate a = baudRate b /\ dataBits a = dataBits b /\
  parity a = parity b /\ stopBits a = stopBits b.

(** ** Basic facts *)

Lemma UARTState_eqb_eq (a b : UARTState) : UARTState_eqb a b = true <-> a = b.
Proof. destruct a, b; simpl; split; congruence. Qed.

Lemma UARTState_eqb_neq (a b : UARTState) : UARTState_eqb a b = false <-> a <> b.
Proof. destruct a, b; simpl; split; congruence. Qed.

Lemma static_cast_int_small (z : Z) :
  0 <= z <= INT_MAX -> static_cast_int z = z.
Proof.
  unfold static_cast_int, INT_MAX. intros Hz.
  rewrite Z.mod_small by lia. lia.
Qed.

Ltac unfold_m :=
  unfold configure, open, close, destructor, read, read_wake, read_drain,
    write, backend_deliver, load_commMethod, cv_wait, when, bind, gets,
    modify, throw, undefined, ret in *.

(** The equations of each member function, by the state it is called in. *)

Lemma open_eq (method : CommMethod) (u : UART) :
  open method u =
  match state u with
  | OPEN => (Throws (runtime_error "UART is already open."), u)
  | CLOSED => (Throws (runtime_error "UART must be configured before opening."), u)
  | CONFIGURED => (Returns tt, set_commMethod method (set_state OPEN u))
  end.
Proof. unfold_m. destruct (state u); reflexivity. Qed.

Lemma close_eq (u : UART) :
  close u =
  match state u with
  | OPEN => (Returns tt, set_state CLOSED u)
  | _ => (Throws (runtime_error "UART is not open."), u)
  end.
Proof. unfold_m. destruct (state u); reflexivity. Qed.

Lemma read_wake_eq (length : Z) (u : UART) :
  read_wake length u =
  if dataReady u
  then
    let n := Z.min length (static_cast_int (Z.of_nat (List.length (readBuffer u)))) in
    if n <? 0 then (Undefined, u)
    else (Returns (n, firstn (Z.to_nat n) (readBuffer u)),
          set_dataReady false (set_readBuffer (skipn (Z.to_nat n) (readBuffer u)) u))
  else (Blocks, u).
Proof.
  unfold_m. destruct (dataReady u); [|reflexivity].
  cbv zeta. destruct (_ <? 0); reflexivity.
Qed.

Lemma read_eq (length : Z) (u : UART) :
  read length u =
  match state u with
  | OPEN => match commMethod u with
            | Some _ => read_wake length u
            | None => (Undefined, u)
            end
  | _ => (Throws (runtime_error "UART is not open."), u)
  end.
Proof.
  unfold read, load_commMethod, when, bind, gets, throw, ret.
  destruct (state u); simpl; try reflexivity.
  destruct (commMethod u) as [m|]; [|reflexivity].
  destruct (CommMethod_eqb m POLLING); destruct (read_wake length u) as [[] ?]; reflexivity.
Qed.

Lemma write_eq (data : list byte) (length : Z) (u : UART) :
  write data length u =
  match state u with
  | OPEN => (Undefined, u)
  | _ => (Throws (runtime_error "UART is not open."), u)
  end.
Proof. unfold_m. destruct (state u); reflexivity. Qed.

Lemma configure_eq (config : UARTConfig) (value : Z) (u : UART) :
  configure config value u =
  match state u with
  | CLOSED =>
      if config =? BAUD_RATE then (Returns tt, set_state CONFIGURED (set_baudRate value u))
      else if config =? DATA_BITS then (Returns tt, set_state CONFIGURED (set_dataBits value u))
      else if config =? PARITY
           then (Returns tt, set_state CONFIGURED (set_parity (negb (value =? 0)) u))
      else if config =? STOP_BITS then (Returns tt, set_state CONFIGURED (set_stopBits value u))
      else (Throws (invalid_argument "Invalid UART configuration."), u)
  | _ => (Throws (runtime_error "UART must be closed before configuration."), u)
  end.
Proof.
  unfold_m. destruct (state u); simpl; try reflexivity.
  destruct (config =? BAUD_RATE); [reflexivity|].
  destruct (config =? DATA_BITS); [reflexivity|].
  destruct (config =? PARITY); [reflexivity|].
  destruct (config =? STOP_BITS); reflexivity.
Qed.

Lemma backend_deliver_eq (chunk : list byte) (u : UART) :
  backend_deliver chunk u =
  match chunk with
  | [] => (Returns tt, u)
  | _ :: _ =>
      if UARTState_eqb (state u) OPEN && producer_started (commMethod u)
      then (Returns tt, set_dataReady true (set_readBuffer (readBuffer u ++ chunk) u))
      else (Returns tt, u)
  end.
Proof.
  unfold_m. destruct chunk; [reflexivity|].
  destruct (UARTState_eqb (state u) OPEN && producer_started (commMethod u)); reflexivity.
Qed.

(** ** Invariants of schedules *)

Lemma constructor_well_formed (id : Z) : well_formed (constructor id).
Proof. split; simpl; discriminate. Qed.

Lemma exec_well_formed (e : event) (u : UART) :
  well_formed u -> well_formed (exec e u).
Proof.
  intros Hwf.
  assert (Hkeep : forall u', state u' = state u -> commMethod u' = commMethod u ->
                             dataReady u' = false -> well_formed u').
  { intros u' Hs Hc Hr. destruct Hwf as [Hm _]. split.
    - rewrite Hs, Hc. exact Hm.
    - rewrite Hr. discriminate. }
  assert (Hleft : forall u' s, s <> OPEN -> state u' = s ->
                               dataReady u' = dataReady u ->
                               readBuffer u' = readBuffer u -> well_formed u').
  { intros u' s Hs Hu Hr Hb. destruct Hwf as [_ Hd]. split.
    - rewrite Hu. intros H. contradiction.
    - rewrite Hr, Hb. exact Hd. }
  destruct e; unfold exec, after.
  - rewrite configure_eq. destruct (state u) eqn:Es; try exact Hwf.
    repeat match goal with
           | |- context [if ?c then _ else _] => destruct c
           end; try exact Hwf;
      apply (Hleft _ CONFIGURED); try reflexivity; discriminate.
  - rewrite open_eq. destruct (state u) eqn:Es; try exact Hwf.
    destruct Hwf as [_ Hd]. split; simpl; [discriminate | exact Hd].
  - rewrite close_eq. destruct (state u) eqn:Es; try exact Hwf.
    apply (Hleft _ CLOSED); try reflexivity; discriminate.
  - rewrite read_eq. destruct (state u) eqn:Es; try exact Hwf.
    destruct (commMethod u) eqn:Ec; [|exact Hwf].
    rewrite read_wake_eq. destruct (dataReady u); [|exact Hwf].
    cbv zeta. destruct (_ <? 0); [exact Hwf|].
    apply Hkeep; simpl; congruence.
  - rewrite read_wake_eq. destruct (dataReady u); [|exact Hwf].
    cbv zeta. destruct (_ <? 0); [exact Hwf|].
    apply Hkeep; reflexivity.
  - rewrite write_eq. destruct (state u); exact Hwf.
  - rewrite backend_deliver_eq. destruct chunk as [|b chunk]; [exact Hwf|].
    destruct (_ && _); [|exact Hwf].
    destruct Hwf as [Hm _]. split; simpl; [exact Hm|]. intros _ H.
    apply app_eq_nil in H. destruct H as [_ H]. discriminate H.
Qed.

Lemma run_well_formed (es : list event) (u : UART) :
  well_formed u -> well_formed (run es u).
Proof.
  revert u. induction es as [|e es IH]; intros u Hu; simpl; [assumption|].
  apply IH, exec_well_formed, Hu.
Qed.

(** Every object a schedule reaches from a new one is well formed. *)
Lemma reachable_well_formed (id : Z) (es : list event) :
  well_formed (run es (constructor id)).
Proof. apply run_well_formed, constructor_well_formed. Qed.

(** Until the next [open], no step of any thread ends starvation. *)
Lemma exec_starved (e : event) (u : UART) :
  is_Open e = false -> starved u -> starved (exec e u).
Proof.
  intros He Hst.
  assert (Hleft : forall u' s, s <> OPEN -> state u' = s ->
                               dataReady u' = dataReady u -> starved u').
  { intros u' s Hs Hu Hr. destruct Hst as [Hd _]. split.
    - rewrite Hr. exact Hd.
    - left. rewrite Hu. exact Hs. }
  assert (Hr : dataReady u = false) by apply Hst.
  destruct e; try discriminate He; unfold exec, after.
  - rewrite configure_eq. destruct (state u) eqn:Es; try exact Hst.
    repeat match goal with
           | |- context [if ?c then _ else _] => destruct c
           end; try exact Hst;
      apply (Hleft _ CONFIGURED); try reflexivity; discriminate.
  - rewrite close_eq. destruct (state u) eqn:Es; try exact Hst.
    apply (Hleft _ CLOSED); try reflexivity; discriminate.
  - rewrite read_eq. destruct (state u) eqn:Es; try exact Hst.
    destruct (commMethod u) eqn:Ec; [|exact Hst].
    rewrite read_wake_eq, Hr. exact Hst.
  - rewrite read_wake_eq, Hr. exact Hst.
  - rewrite write_eq. destruct (state u); exact Hst.
  - rewrite backend_deliver_eq. destruct chunk as [|b chunk]; [exact Hst|].
    replace (UARTState_eqb (state u) OPEN && producer_started (commMethod u))
      with false; [exact Hst|].
    symmetry. destruct Hst as [_ [Hs | Hs]].
    + apply UARTState_eqb_neq in Hs. rewrite Hs. reflexivity.
    + rewrite Hs. apply andb_false_r.
Qed.

Lemma run_starved (es : list event) (u : UART) :
  forallb (fun e => negb (is_Open e)) es = true -> starved u -> starved (run es u).
Proof.
  revert u. induction es as [|e es IH]; intros u Hes Hu; simpl; [assumption|].
  simpl in Hes. apply andb_true_iff in Hes. destruct Hes as [He Hes].
  apply IH; [assumption|]. apply exec_starved; [|assumption].
  destruct (is_Open e); [discriminate | reflexivity].
Qed.

(** Nothing but a read takes bytes out of the buffer and nothing but a
    delivery puts bytes in, both at the ends a queue uses: at every
    point of a schedule the bytes delivered so far are the bytes read so
    far followed by the buffer. *)
Lemma exec_fifo (e : event) (u : UART) :
  readBuffer u ++ bytes_in e u = bytes_out e u ++ readBuffer (exec e u).
Proof.
  assert (Hw : forall length,
             readBuffer u =
             match fst (read_wake length u) with
             | Returns (_, bs) => bs
             | _ => []
             end ++ readBuffer (after (read_wake length) u)).
  { intros length. unfold after. rewrite read_wake_eq.
    destruct (dataReady u); [|reflexivity].
    cbv zeta. destruct (_ <? 0); [reflexivity|].
    simpl. symmetry. apply firstn_skipn. }
  destruct e; unfold exec, bytes_in, bytes_out; try rewrite app_nil_r.
  - unfold after. rewrite configure_eq. destruct (state u); try reflexivity.
    repeat match goal with
           | |- context [if ?c then _ else _] => destruct c
           end; reflexivity.
  - unfold after. rewrite open_eq. destruct (state u); reflexivity.
  - unfold after. rewrite close_eq. destruct (state u); reflexivity.
  - unfold after. rewrite read_eq.
    destruct (state u); try reflexivity.
    destruct (commMethod u); [apply Hw | reflexivity].
  - apply Hw.
  - unfold after. rewrite write_eq. destruct (state u); reflexivity.
  - unfold after. rewrite backend_deliver_eq.
    destruct (_ && _); destruct chunk; simpl; rewrite ?app_nil_r; reflexivity.
Qed.

Lemma run_fifo (es : list event) (u : UART) :
  readBuffer u ++ produced es u = consumed es u ++ readBuffer (run es u).
Proof.
  revert u. induction es as [|e es IH]; intros u; simpl.
  - apply app_nil_r.
  - rewrite app_assoc, exec_fifo, <- !app_assoc. f_equal. apply IH.
Qed.

(** ** Lifecycle *)

(** C1: the lifecycle preconditions are checked on every call.  [open]
    throws "UART is already open." when the state is OPEN and "UART must
    be configured before opening." when it is CLOSED, and returns, with
    the state OPEN and the strategy recorded, from CONFIGURED and from
    no other state; [close] and [read] throw "UART is not open."
    whenever the state is not OPEN.  A rejected call changes nothing. *)
Theorem lifecycle_preconditions :
  (forall u method, state u = OPEN ->
     open method u = (Throws (runtime_error "UART is already open."), u)) /\
  (forall u method, state u = CLOSED ->
     open method u =
     (Throws (runtime_error "UART must be configured before opening."), u)) /\
  (forall u method, state u = CONFIGURED ->
     open method u = (Returns tt, set_commMethod method (set_state OPEN u))) /\
  (forall u method, fst (open method u) = Returns tt -> state u = CONFIGURED) /\
  (forall u, state u <> OPEN ->
     close u = (Throws (runtime_error "UART is not open."), u)) /\
  (forall u length, state u <> OPEN ->
     read length u = (Throws (runtime_error "UART is not open."), u)).
Proof.
  repeat split.
  - intros u method H. rewrite open_eq, H. reflexivity.
  - intros u method H. rewrite open_eq, H. reflexivity.
  - intros u method H. rewrite open_eq, H. reflexivity.
  - intros u method. rewrite open_eq.
    destruct (state u); simpl; intros H; try discriminate H; reflexivity.
  - intros u H. rewrite close_eq. destruct (state u); try reflexivity.
    contradiction H. reflexivity.
  - intros u length H. rewrite read_eq. destruct (state u); try reflexivity.
    contradiction H. reflexivity.
Qed.

Lemma lifecycle_preconditions_witness :
  open DMA (opened POLLING) =
    (Throws (runtime_error "UART is already open."), opened POLLING) /\
  open DMA (constructor 1) =
    (Throws (runtime_error "UART must be configured before opening."),
     constructor 1) /\
  open DMA (exec (Configure PARITY 1) (constructor 1)) =
    (Returns tt,
     set_commMethod DMA (set_state OPEN (exec (Configure PARITY 1) (constructor 1)))) /\
  state (exec (Configure PARITY 1) (constructor 1)) = CONFIGURED /\
  close (constructor 1) =
    (Throws (runtime_error "UART is not open."), constructor 1) /\
  read 10 (exec (Configure PARITY 1) (constructor 1)) =
    (Throws (runtime_error "UART is not open."),
     exec (Configure PARITY 1) (constructor 1)).
Proof.
  destruct lifecycle_preconditions as (H1 & H2 & H3 & H4 & H5 & H6).
  split; [apply H1; reflexivity|].
  split; [apply H2; reflexivity|].
  split; [apply H3; reflexivity|].
  split; [apply (H4 _ DMA); reflexivity|].
  split; [apply H5; simpl; discriminate|].
  apply H6; simpl; discriminate.
Defined.

(** ** Configuration *)

(** C2: the second [configure] of a sequence does not succeed.  The
    first call of [main] leaves the state CONFIGURED; the guard of
    [configure] then rejects the second one with "UART must be closed
    before configuration.", so the [try] block of [main] ends there with
    only the baud rate set; the same holds in every CONFIGURED object,
    for every parameter and value. *)
Theorem second_configure_is_rejected :
  configure BAUD_RATE 115200 (constructor 1) =
    (Returns tt, set_state CONFIGURED (set_baudRate 115200 (constructor 1))) /\
  configure DATA_BITS 8 (set_state CONFIGURED (set_baudRate 115200 (constructor 1))) =
    (Throws (runtime_error "UART must be closed before configuration."),
     set_state CONFIGURED (set_baudRate 115200 (constructor 1))) /\
  main_try (constructor 1) =
    (Throws (runtime_error "UART must be closed before configuration."),
     set_state CONFIGURED (set_baudRate 115200 (constructor 1))) /\
  (forall u config value,
     configure config value (set_state CONFIGURED u) =
     (Throws (runtime_error "UART must be closed before configuration."),
      set_state CONFIGURED u)).
Proof.
  split; [reflexivity|]. split; [reflexivity|]. split; [reflexivity|].
  intros u config value. rewrite configure_eq. reflexivity.
Qed.

(** C9: a [configure] that returns has set the field its parameter
    names ([parity] to [value != 0]) and no other: the three other
    configuration fields and [uartId] are as before, and so are the
    strategy, the ready flag and the receive buffer; the parameter was
    one of the four enumerators. *)
Theorem configure_sets_only_target (u u' : UART) (config : UARTConfig) (value : Z) :
  configure config value u = (Returns tt, u') ->
  recognized config /\
  uartId u' = uartId u /\
  baudRate u' = (if config =? BAUD_RATE then value else baudRate u) /\
  dataBits u' = (if config =? DATA_BITS then value else dataBits u) /\
  parity u' = (if config =? PARITY then negb (value =? 0) else parity u) /\
  stopBits u' = (if config =? STOP_BITS then value else stopBits u) /\
  commMethod u' = commMethod u /\
  dataReady u' = dataReady u /\
  readBuffer u' = readBuffer u.
Proof.
  rewrite configure_eq. unfold recognized, BAUD_RATE, DATA_BITS, PARITY, STOP_BITS.
  destruct (state u); try discriminate.
  destruct (config =? 0) eqn:E0.
  { apply Z.eqb_eq in E0. subst config. intros H. inversion H. simpl. tauto. }
  destruct (config =? 1) eqn:E1.
  { apply Z.eqb_eq in E1. subst config. intros H. inversion H. simpl. tauto. }
  destruct (config =? 2) eqn:E2.
  { apply Z.eqb_eq in E2. subst config. intros H. inversion H. simpl. tauto. }
  destruct (config =? 3) eqn:E3.
  { apply Z.eqb_eq in E3. subst config. intros H. inversion H. simpl. tauto. }
  discriminate.
Qed.

Lemma configure_sets_only_target_witness :
  recognized PARITY /\
  uartId (exec (Configure PARITY 1) (constructor 1)) = 1 /\
  baudRate (exec (Configure PARITY 1) (constructor 1)) = 9600 /\
  dataBits (exec (Configure PARITY 1) (constructor 1)) = 8 /\
  parity (exec (Configure PARITY 1) (constructor 1)) = true /\
  stopBits (exec (Configure PARITY 1) (constructor 1)) = 1 /\
  commMethod (exec (Configure PARITY 1) (constructor 1)) = None /\
  dataReady (exec (Configure PARITY 1) (constructor 1)) = false /\
  readBuffer (exec (Configure PARITY 1) (constructor 1)) = [].
Proof.
  apply (configure_sets_only_target (constructor 1) _ PARITY 1). reflexivity.
Defined.

(** C10: called in state CLOSED with a parameter that is none of the
    four enumerators, [configure] throws [invalid_argument] and leaves
    the whole object as it was: the state is still CLOSED and no field
    has changed. *)
Theorem configure_unrecognized_atomic (u : UART) (config : UARTConfig) (value : Z) :
  state u = CLOSED -> ~ recognized config ->
  configure config value u =
  (Throws (invalid_argument "Invalid UART configuration."), u).
Proof.
  intros Hs Hc. rewrite configure_eq, Hs. unfold recognized in Hc.
  destruct (config =? BAUD_RATE) eqn:E0; [apply Z.eqb_eq in E0; tauto|].
  destruct (config =? DATA_BITS) eqn:E1; [apply Z.eqb_eq in E1; tauto|].
  destruct (config =? PARITY) eqn:E2; [apply Z.eqb_eq in E2; tauto|].
  destruct (config =? STOP_BITS) eqn:E3; [apply Z.eqb_eq in E3; tauto|].
  reflexivity.
Qed.

Lemma configure_unrecognized_atomic_witness :
  configure 7 115200 (constructor 1) =
  (Throws (invalid_argument "Invalid UART configuration."), constructor 1).
Proof.
  apply configure_unrecognized_atomic; [reflexivity|].
  unfold recognized, BAUD_RATE, DATA_BITS, PARITY, STOP_BITS. lia.
Defined.

(** ** Read *)

(** The drain of a reader that is let through, for a count that fits. *)
Lemma read_ready (u : UART) (length : Z) :
  state u = OPEN -> commMethod u <> None -> dataReady u = true ->
  0 <= length -> Z.of_nat (List.length (readBuffer u)) <= INT_MAX ->
  let n := Z.min length (Z.of_nat (List.length (readBuffer u))) in
  read length u =
  (Returns (n, firstn (Z.to_nat n) (readBuffer u)),
   set_dataReady false (set_readBuffer (skipn (Z.to_nat n) (readBuffer u)) u)).
Proof.
  intros Hs Hc Hr Hl Hb n. rewrite read_eq, Hs.
  destruct (commMethod u); [|contradiction Hc; reflexivity].
  rewrite read_wake_eq, Hr. cbv zeta.
  rewrite static_cast_int_small by lia. fold n.
  destruct (n <? 0) eqn:En; [|reflexivity].
  apply Z.ltb_lt in En. unfold n in En. lia.
Qed.

(** X13: a [read] of [length] bytes on an open driver whose [dataReady]
    flag is set returns: the buffer splits into the bytes handed to the caller and
    the rest, the bytes are min(length, available) many, in buffer
    order, never more than [length], their number is the value
    returned, and the rest is the buffer the next [read] finds; a
    reader that was suspended and is let through drains in the same
    way.  Over any schedule that follows, the bytes in the buffer and
    then the bytes the producer appends are, in that order, the bytes
    the reads return followed by the bytes left in the buffer. *)
Theorem read_drains_front (u : UART) (length : Z) :
  state u = OPEN -> commMethod u <> None -> dataReady u = true ->
  0 <= length -> Z.of_nat (List.length (readBuffer u)) <= INT_MAX ->
  (exists bytes rest,
     readBuffer u = bytes ++ rest /\
     Z.of_nat (List.length bytes) =
       Z.min length (Z.of_nat (List.length (readBuffer u))) /\
     Z.of_nat (List.length bytes) <= length /\
     read length u =
       (Returns (Z.of_nat (List.length bytes), bytes),
        set_dataReady false (set_readBuffer rest u)) /\
     read_wake length u = read length u) /\
  (forall es,
     readBuffer u ++ produced es u = consumed es u ++ readBuffer (run es u)).
Proof.
  intros Hs Hc Hr Hl Hb. split; [|intros es; apply run_fifo].
  pose (n := Z.min length (Z.of_nat (List.length (readBuffer u)))).
  assert (Hn : Z.of_nat (List.length (firstn (Z.to_nat n) (readBuffer u))) = n).
  { rewrite length_firstn. unfold n. lia. }
  exists (firstn (Z.to_nat n) (readBuffer u)), (skipn (Z.to_nat n) (readBuffer u)).
  split; [symmetry; apply firstn_skipn|].
  split; [exact Hn|].
  split; [rewrite Hn; unfold n; lia|].
  split; [rewrite Hn; apply read_ready; assumption|].
  rewrite read_eq, Hs. destruct (commMethod u); [reflexivity|].
  contradiction Hc. reflexivity.
Qed.

Lemma read_drains_front_witness :
  (exists bytes rest,
     readBuffer received = bytes ++ rest /\
     Z.of_nat (List.length bytes) =
       Z.min 1 (Z.of_nat (List.length (readBuffer received))) /\
     Z.of_nat (List.length bytes) <= 1 /\
     read 1 received =
       (Returns (Z.of_nat (List.length bytes), bytes),
        set_dataReady false (set_readBuffer rest received)) /\
     read_wake 1 received = read 1 received) /\
  (forall es,
     readBuffer received ++ produced es received =
     consumed es received ++ readBuffer (run es received)).
Proof.
  apply (read_drains_front received 1).
  - reflexivity.
  - simpl. discriminate.
  - reflexivity.
  - lia.
  - vm_compute. discriminate.
Defined.

(** The drain of a reader that finds its predicate true, in whatever
    state the driver is. *)
Lemma read_wake_ready (v : UART) (length : Z) :
  dataReady v = true -> 0 <= length ->
  Z.of_nat (List.length (readBuffer v)) <= INT_MAX ->
  read_wake length v =
  (Returns (Z.min length (Z.of_nat (List.length (readBuffer v))),
            firstn (Z.to_nat (Z.min length (Z.of_nat (List.length (readBuffer v)))))
                   (readBuffer v)),
   set_dataReady false
     (set_readBuffer
        (skipn (Z.to_nat (Z.min length (Z.of_nat (List.length (readBuffer v)))))
               (readBuffer v)) v)).
Proof.
  intros Hr Hl Hb. rewrite read_wake_eq, Hr. cbv zeta.
  rewrite static_cast_int_small by lia.
  destruct (_ <? 0) eqn:En; [|reflexivity].
  apply Z.ltb_lt in En. lia.
Qed.

(** C3: bytes that a [read] has left in the buffer are not handed to the
    next [read].  After a [read] of [k] bytes that takes fewer than the
    buffer holds, the driver is open and the rest is buffered, and a
    [read] of any [length] is suspended there: it removes nothing and
    returns no byte and no count. *)
Theorem leftover_bytes_are_not_read (u : UART) (k length : Z) :
  state u = OPEN -> commMethod u <> None -> dataReady u = true ->
  0 <= k < Z.of_nat (List.length (readBuffer u)) ->
  Z.of_nat (List.length (readBuffer u)) <= INT_MAX ->
  state (exec (Read k) u) = OPEN /\
  readBuffer (exec (Read k) u) = skipn (Z.to_nat k) (readBuffer u) /\
  readBuffer (exec (Read k) u) <> [] /\
  read length (exec (Read k) u) = (Blocks, exec (Read k) u).
Proof.
  intros Hs Hc Hr Hk Hb.
  pose proof (read_ready u k Hs Hc Hr (proj1 Hk) Hb) as H. cbv zeta in H.
  rewrite Z.min_l in H by lia.
  unfold exec, after. rewrite H. cbn [snd].
  split; [exact Hs|]. split; [reflexivity|]. split.
  - simpl. intros E.
    apply (f_equal (@List.length byte)) in E. rewrite length_skipn in E.
    simpl in E. lia.
  - rewrite read_eq. simpl. rewrite Hs.
    destruct (commMethod u); [|contradiction Hc; reflexivity].
    rewrite read_wake_eq. reflexivity.
Qed.

Lemma leftover_bytes_are_not_read_witness :
  readBuffer received = [x48; x69] /\
  state (exec (Read 1) received) = OPEN /\
  readBuffer (exec (Read 1) received) = skipn (Z.to_nat 1) (readBuffer received) /\
  readBuffer (exec (Read 1) received) <> [] /\
  read 1 (exec (Read 1) received) = (Blocks, exec (Read 1) received).
Proof.
  split; [reflexivity|].
  apply (leftover_bytes_are_not_read received 1 1).
  - reflexivity.
  - simpl. discriminate.
  - reflexivity.
  - simpl. lia.
  - vm_compute. discriminate.
Defined.

(** C5: a [read] that takes fewer bytes than the buffer holds returns
    with bytes still in the buffer and [dataReady] false, and the same
    [read] called again is suspended although those bytes are there. *)
Theorem partial_read_clears_dataReady (u : UART) (length : Z) :
  state u = OPEN -> commMethod u <> None -> dataReady u = true ->
  0 <= length < Z.of_nat (List.length (readBuffer u)) ->
  Z.of_nat (List.length (readBuffer u)) <= INT_MAX ->
  exists r u',
    read length u = (Returns r, u') /\
    readBuffer u' <> [] /\
    dataReady u' = false /\
    read length u' = (Blocks, u').
Proof.
  intros Hs Hc Hr Hl Hb.
  pose proof (read_ready u length Hs Hc Hr (proj1 Hl) Hb) as H. cbv zeta in H.
  rewrite Z.min_l in H by lia.
  eexists. eexists. split; [exact H|].
  split; [|split].
  - simpl. intros E.
    apply (f_equal (@List.length byte)) in E. rewrite length_skipn in E.
    simpl in E. lia.
  - reflexivity.
  - rewrite read_eq. simpl. rewrite Hs.
    destruct (commMethod u); [|contradiction Hc; reflexivity].
    rewrite read_wake_eq. reflexivity.
Qed.

Lemma partial_read_clears_dataReady_witness :
  readBuffer received = [x48; x69] /\
  dataReady received = true /\
  exists r u',
    read 1 received = (Returns r, u') /\
    readBuffer u' <> [] /\
    dataReady u' = false /\
    read 1 u' = (Blocks, u').
Proof.
  split; [reflexivity|]. split; [reflexivity|].
  apply (partial_read_clears_dataReady received 1).
  - reflexivity.
  - simpl. discriminate.
  - reflexivity.
  - simpl. lia.
  - vm_compute. discriminate.
Defined.

(** C6: under POLLING, with no data ready, [read] polls nothing and is
    suspended on the data-ready condition; it returns no count.  No
    producer runs for POLLING, so whatever the other threads do short of
    opening the driver again, a wake-up finds the predicate false and
    the reader suspended still. *)
Theorem polling_read_blocks (u : UART) (length : Z) :
  state u = OPEN -> commMethod u = Some POLLING -> dataReady u = false ->
  read length u = (Blocks, u) /\
  (forall es, forallb (fun e => negb (is_Open e)) es = true ->
     read_wake length (run es u) = (Blocks, run es u)).
Proof.
  intros Hs Hc Hr. split.
  - rewrite read_eq, Hs, Hc, read_wake_eq, Hr. reflexivity.
  - intros es Hes.
    assert (Hst : starved (run es u)).
    { apply run_starved; [exact Hes|]. split; [exact Hr | right; exact Hc]. }
    rewrite read_wake_eq. destruct Hst as [Hd _]. rewrite Hd. reflexivity.
Qed.

Lemma polling_read_blocks_witness :
  read 10 (opened POLLING) = (Blocks, opened POLLING) /\
  (forall es, forallb (fun e => negb (is_Open e)) es = true ->
     read_wake 10 (run es (opened POLLING)) = (Blocks, run es (opened POLLING))).
Proof.
  apply (polling_read_blocks (opened POLLING) 10); reflexivity.
Defined.

(** ** Write *)

(** C7: on an open driver [write] reaches the end of its body without a
    [return] statement: no count is returned (and nothing is handed to
    a backend); on a driver that is not open it throws "UART is not
    open.".  In both cases the object is unchanged. *)
Theorem write_returns_no_count (u : UART) (data : list byte) (length : Z) :
  (state u = OPEN -> write data length u = (Undefined, u)) /\
  (state u <> OPEN ->
   write data length u = (Throws (runtime_error "UART is not open."), u)).
Proof.
  rewrite write_eq. split; intros H.
  - rewrite H. reflexivity.
  - destruct (state u); try reflexivity. contradiction H. reflexivity.
Qed.

Lemma write_returns_no_count_witness :
  write (list_byte_of_string "Hello, UART!") 12 (opened INTERRUPT) =
    (Undefined, opened INTERRUPT) /\
  write (list_byte_of_string "Hello, UART!") 12 (constructor 1) =
    (Throws (runtime_error "UART is not open."), constructor 1).
Proof.
  split.
  - apply (write_returns_no_count (opened INTERRUPT)). reflexivity.
  - apply (write_returns_no_count (constructor 1)). simpl. discriminate.
Defined.

(** ** Close *)

(** C4, as claimed, fails: after the two bytes 0x48 0x69 were delivered
    to a driver opened for INTERRUPT, [close] returns with the strategy
    still INTERRUPT, [dataReady] still true and both bytes still in the
    buffer, and a [read] after reconfiguring and reopening returns
    them. *)
Lemma close_keeps_strategy_and_bytes :
  state received = OPEN /\
  close received = (Returns tt, set_state CLOSED received) /\
  commMethod (set_state CLOSED received) = Some INTERRUPT /\
  dataReady (set_state CLOSED received) = true /\
  readBuffer (set_state CLOSED received) = [x48; x69] /\
  ~ (commMethod (set_state CLOSED received) = None /\
     dataReady (set_state CLOSED received) = false /\
     readBuffer (set_state CLOSED received) = []) /\
  fst (read 10 (run [Close; Configure BAUD_RATE 9600; Open DMA] received)) =
    Returns (2, [x48; x69]).
Proof.
  split; [reflexivity|]. split; [reflexivity|]. split; [reflexivity|].
  split; [reflexivity|]. split; [reflexivity|].
  split; [|reflexivity].
  simpl. intros [H _]. discriminate H.
Qed.

(** C4, amended: [close] on an open driver returns with the state
    CLOSED and every other member as it was: the recorded strategy, the
    ready flag and the unread bytes are kept.  Once the driver has been
    configured and opened again they are still there, the strategy
    replaced by the new one; a [read] then returns the first
    min(length, available) of the bytes buffered before [close] when
    [dataReady] was set at [close], and is suspended when it was not. *)
Theorem close_changes_state_only (u : UART) :
  state u = OPEN ->
  close u = (Returns tt, set_state CLOSED u) /\
  state (set_state CLOSED u) = CLOSED /\
  commMethod (set_state CLOSED u) = commMethod u /\
  dataReady (set_state CLOSED u) = dataReady u /\
  readBuffer (set_state CLOSED u) = readBuffer u /\
  (forall config value method, recognized config ->
     state (run [Close; Configure config value; Open method] u) = OPEN /\
     commMethod (run [Close; Configure config value; Open method] u) = Some method /\
     dataReady (run [Close; Configure config value; Open method] u) = dataReady u /\
     readBuffer (run [Close; Configure config value; Open method] u) = readBuffer u) /\
  (forall config value method length, recognized config ->
     dataReady u = true -> 0 <= length ->
     Z.of_nat (List.length (readBuffer u)) <= INT_MAX ->
     fst (read length (run [Close; Configure config value; Open method] u)) =
     Returns (Z.min length (Z.of_nat (List.length (readBuffer u))),
              firstn (Z.to_nat (Z.min length (Z.of_nat (List.length (readBuffer u)))))
                     (readBuffer u))) /\
  (forall config value method length, recognized config ->
     dataReady u = false ->
     fst (read length (run [Close; Configure config value; Open method] u)) = Blocks).
Proof.
  intros Hs. split; [rewrite close_eq, Hs; reflexivity|].
  repeat (split; [reflexivity|]).
  assert (Hrun : forall config value method, recognized config ->
            state (run [Close; Configure config value; Open method] u) = OPEN /\
            commMethod (run [Close; Configure config value; Open method] u) = Some method /\
            dataReady (run [Close; Configure config value; Open method] u) = dataReady u /\
            readBuffer (run [Close; Configure config value; Open method] u) = readBuffer u).
  { intros config value method Hc. unfold run, exec, after.
    rewrite close_eq, Hs. cbn [snd]. rewrite configure_eq.
    destruct Hc as [-> | [-> | [-> | ->]]]; simpl; repeat split. }
  split; [exact Hrun|]. split.
  - intros config value method length Hc Hr Hl Hb.
    destruct (Hrun config value method Hc) as (H1 & H2 & H3 & H4).
    rewrite read_eq, H1, H2, read_wake_ready; rewrite ?H3, ?H4; try assumption.
    reflexivity.
  - intros config value method length Hc Hr.
    destruct (Hrun config value method Hc) as (H1 & H2 & H3 & H4).
    rewrite read_eq, H1, H2, read_wake_eq, H3, Hr. reflexivity.
Qed.

Lemma close_changes_state_only_witness :
  state received = OPEN /\
  close received = (Returns tt, set_state CLOSED received) /\
  state (set_state CLOSED received) = CLOSED /\
  commMethod (set_state CLOSED received) = commMethod received /\
  dataReady (set_state CLOSED received) = dataReady received /\
  readBuffer (set_state CLOSED received) = readBuffer received /\
  (forall config value method, recognized config ->
     state (run [Close; Configure config value; Open method] received) = OPEN /\
     commMethod (run [Close; Configure config value; Open method] received) = Some method /\
     dataReady (run [Close; Configure config value; Open method] received) =
       dataReady received /\
     readBuffer (run [Close; Configure config value; Open method] received) =
       readBuffer received) /\
  (forall config value method length, recognized config ->
     dataReady received = true -> 0 <= length ->
     Z.of_nat (List.length (readBuffer received)) <= INT_MAX ->
     fst (read length (run [Close; Configure config value; Open method] received)) =
     Returns (Z.min length (Z.of_nat (List.length (readBuffer received))),
              firstn (Z.to_nat (Z.min length (Z.of_nat (List.length (readBuffer received)))))
                     (readBuffer received))) /\
  (forall config value method length, recognized config ->
     dataReady received = false ->
     fst (read length (run [Close; Configure config value; Open method] received)) = Blocks).
Proof.
  split; [reflexivity|].
  apply (close_changes_state_only received). reflexivity.
Defined.

(** C8, as claimed, fails: a [read] on a driver opened for INTERRUPT
    with nothing received is suspended; [close] then returns, and the
    reader, woken, finds its predicate false and is suspended again:
    its call does not end with "UART is not open.". *)
Lemma close_does_not_release_reader :
  read 10 (opened INTERRUPT) = (Blocks, opened INTERRUPT) /\
  close (opened INTERRUPT) = (Returns tt, set_state CLOSED (opened INTERRUPT)) /\
  read_wake 10 (set_state CLOSED (opened INTERRUPT)) =
    (Blocks, set_state CLOSED (opened INTERRUPT)) /\
  fst (read_wake 10 (set_state CLOSED (opened INTERRUPT))) <>
    Throws (runtime_error "UART is not open.").
Proof.
  split; [reflexivity|]. split; [reflexivity|]. split; [reflexivity|].
  simpl. discriminate.
Qed.

(** ** Steps of all threads *)

Lemma same_config_refl (u : UART) : same_config u u.
Proof. repeat split. Qed.

Lemma same_config_trans (a b c : UART) :
  same_config a b -> same_config b c -> same_config a c.
Proof.
  unfold same_config. intros (H1 & H2 & H3 & H4) (K1 & K2 & K3 & K4).
  repeat split; congruence.
Qed.

Lemma recognized_dec (config : UARTConfig) :
  {recognized config} + {~ recognized config}.
Proof.
  unfold recognized.
  destruct (Z.eq_dec config BAUD_RATE); [left; tauto|].
  destruct (Z.eq_dec config DATA_BITS); [left; tauto|].
  destruct (Z.eq_dec config PARITY); [left; tauto|].
  destruct (Z.eq_dec config STOP_BITS); [left; tauto|].
  right. tauto.
Qed.

(** The turns of the two loops change no member. *)
Lemma asyncRead_turn_eq (u : UART) :
  asyncRead_turn u = (Returns (UARTState_eqb (state u) OPEN), u).
Proof.
  unfold asyncRead_turn, notify_one, bind, gets, ret.
  destruct (UARTState_eqb (state u) OPEN); reflexivity.
Qed.

Lemma dmaRead_turn_eq (u : UART) :
  dmaRead_turn u = (Returns (UARTState_eqb (state u) OPEN), u).
Proof.
  unfold dmaRead_turn, notify_one, bind, gets, ret.
  destruct (UARTState_eqb (state u) OPEN); reflexivity.
Qed.

(** A [configure] that gets past both checks. *)
Lemma configure_recognized (config : UARTConfig) (value : Z) (u : UART) :
  state u = CLOSED -> recognized config ->
  fst (configure config value u) = Returns tt /\
  state (after (configure config value) u) = CONFIGURED.
Proof.
  intros Hs Hc. unfold after. rewrite configure_eq, Hs.
  destruct Hc as [-> | [-> | [-> | ->]]]; simpl; split; reflexivity.
Qed.

Lemma configure_same_config (config : UARTConfig) (value : Z) (a b : UART) :
  state a = CLOSED -> state b = CLOSED -> same_config a b ->
  same_config (after (configure config value) a) (after (configure config value) b).
Proof.
  intros Ha Hb (H1 & H2 & H3 & H4). unfold after.
  rewrite !configure_eq, Ha, Hb.
  repeat match goal with
         | |- context [if ?c then _ else _] => destruct c
         end; repeat split; simpl; assumption.
Qed.

Lemma configure_default_branch (config : UARTConfig) (value : Z) (u : UART) :
  state u = CLOSED -> ~ recognized config ->
  configure config value u =
  (Throws (invalid_argument "Invalid UART configuration."), u).
Proof.
  intros Hs Hc. rewrite configure_eq, Hs. unfold recognized in Hc.
  destruct (Z.eqb_spec config BAUD_RATE); [tauto|].
  destruct (Z.eqb_spec config DATA_BITS); [tauto|].
  destruct (Z.eqb_spec config PARITY); [tauto|].
  destruct (Z.eqb_spec config STOP_BITS); [tauto|].
  reflexivity.
Qed.

(** What one event does to the state and to the configuration: nothing,
    or one of the three transitions. *)
Lemma exec_summary (e : event) (u : UART) :
  uartId (exec e u) = uartId u /\
  ((state (exec e u) = state u /\ same_config (exec e u) u) \/
   (state u = CLOSED /\ state (exec e u) = CONFIGURED /\
    exists config value, e = Configure config value /\ recognized config) \/
   (state u = CONFIGURED /\ state (exec e u) = OPEN /\
    same_config (exec e u) u /\ exists method, e = Open method) \/
   (state u = OPEN /\ state (exec e u) = CLOSED /\
    same_config (exec e u) u /\ e = Close)).
Proof.
  destruct e as [config value | method | | length | length | data length | chunk];
    unfold exec.
  - destruct (state u) eqn:Es.
    + destruct (recognized_dec config) as [Hc | Hc].
      * destruct (configure_recognized config value u Es Hc) as [_ Hst].
        split.
        { unfold after. rewrite configure_eq, Es.
          destruct Hc as [-> | [-> | [-> | ->]]]; reflexivity. }
        right. left. split; [reflexivity|]. split; [exact Hst|].
        exists config, value. split; [reflexivity | exact Hc].
      * unfold after. rewrite (configure_default_branch config value u Es Hc).
        simpl. split; [reflexivity|]. left. split; [exact Es | apply same_config_refl].
    + unfold after. rewrite configure_eq, Es. simpl.
      split; [reflexivity|]. left. split; [exact Es | apply same_config_refl].
    + unfold after. rewrite configure_eq, Es. simpl.
      split; [reflexivity|]. left. split; [exact Es | apply same_config_refl].
  - unfold after. rewrite open_eq. destruct (state u) eqn:Es; simpl.
    + split; [reflexivity|]. left. split; [exact Es | apply same_config_refl].
    + split; [reflexivity|]. left. split; [exact Es | apply same_config_refl].
    + split; [reflexivity|]. right. right. left.
      repeat split. exists method. reflexivity.
  - unfold after. rewrite close_eq. destruct (state u) eqn:Es; simpl.
    + split; [reflexivity|]. left. split; [exact Es | apply same_config_refl].
    + split; [reflexivity|]. right. right. right. repeat split.
    + split; [reflexivity|]. left. split; [exact Es | apply same_config_refl].
  - unfold after. rewrite read_eq.
    destruct (state u) eqn:Es; simpl;
      try (split; [reflexivity|]; left; split; [exact Es | apply same_config_refl]).
    destruct (commMethod u);
      [|simpl; split; [reflexivity|]; left; split; [exact Es | apply same_config_refl]].
    rewrite read_wake_eq. destruct (dataReady u); cbv zeta;
      [destruct (_ <? 0)|]; simpl; split; try reflexivity; left;
        (split; [exact Es | apply same_config_refl || (repeat split)]).
  - unfold after. rewrite read_wake_eq. destruct (dataReady u); cbv zeta;
      [destruct (_ <? 0)|]; simpl; split; try reflexivity; left;
        (split; [reflexivity | apply same_config_refl || (repeat split)]).
  - unfold after. rewrite write_eq.
    destruct (state u) eqn:Es; simpl; split; try reflexivity; left;
      (split; [exact Es | apply same_config_refl]).
  - unfold after. rewrite backend_deliver_eq.
    destruct chunk; [|destruct (_ && _)]; simpl; split; try reflexivity; left;
      (split; [reflexivity | apply same_config_refl || (repeat split)]).
Qed.

Lemma exec_step_turns (u : UART) :
  exec_step AsyncTurn u = u /\ exec_step DmaTurn u = u.
Proof.
  unfold exec_step, after. rewrite asyncRead_turn_eq, dmaRead_turn_eq.
  split; reflexivity.
Qed.

Lemma run_steps_well_formed (ss : list step) (u : UART) :
  well_formed u -> well_formed (run_steps ss u).
Proof.
  revert u. induction ss as [|s ss IH]; intros u Hu; simpl; [exact Hu|].
  apply IH. destruct s as [e | |].
  - apply exec_well_formed, Hu.
  - rewrite (proj1 (exec_step_turns u)). exact Hu.
  - rewrite (proj2 (exec_step_turns u)). exact Hu.
Qed.

(** While the wait predicate is false, nothing but a delivery sets it
    or touches the buffer. *)
Lemma exec_keeps_buffer (e : event) (u : UART) :
  is_Deliver e = false -> dataReady u = false ->
  dataReady (exec e u) = false /\ readBuffer (exec e u) = readBuffer u.
Proof.
  intros He Hr.
  destruct e as [config value | method | | length | length | data length | chunk];
    try discriminate He; unfold exec, after.
  - rewrite configure_eq. destruct (state u); simpl; try (split; [exact Hr | reflexivity]).
    repeat match goal with
           | |- context [if ?c then _ else _] => destruct c
           end; simpl; split; (exact Hr || reflexivity).
  - rewrite open_eq. destruct (state u); simpl; split; (exact Hr || reflexivity).
  - rewrite close_eq. destruct (state u); simpl; split; (exact Hr || reflexivity).
  - rewrite read_eq. destruct (state u); simpl; try (split; [exact Hr | reflexivity]).
    destruct (commMethod u); simpl; [|split; [exact Hr | reflexivity]].
    rewrite read_wake_eq, Hr. simpl. split; [exact Hr | reflexivity].
  - rewrite read_wake_eq, Hr. simpl. split; [exact Hr | reflexivity].
  - rewrite write_eq. destruct (state u); simpl; split; (exact Hr || reflexivity).
Qed.

(** ** Further properties of the driver *)

(** X1: the destructor never throws: it returns, for every object,
    with a state that is not OPEN; an open driver is closed as by
    [close] (only the state changes), any other object is left as it
    is. *)
Theorem destructor_closes (u : UART) :
  exists v,
    destructor u = (Returns tt, v) /\
    state v <> OPEN /\
    v = (if UARTState_eqb (state u) OPEN then set_state CLOSED u else u).
Proof.
  unfold destructor, when, bind, gets, ret.
  destruct (state u) eqn:Es; simpl.
  - exists u. repeat split. rewrite Es. discriminate.
  - exists (set_state CLOSED u). split.
    + rewrite close_eq, Es. reflexivity.
    + split; [simpl; discriminate | reflexivity].
  - exists u. repeat split. rewrite Es. discriminate.
Qed.

(** X2: a step of any thread leaves the state as it is or takes one of
    three transitions: CLOSED to CONFIGURED by a [configure] with one of
    the four parameters, CONFIGURED to OPEN by [open], OPEN to CLOSED by
    [close].  No step leads from CLOSED to OPEN or from OPEN to
    CONFIGURED. *)
Theorem state_machine_edges (s : step) (u : UART) :
  state (exec_step s u) = state u \/
  (state u = CLOSED /\ state (exec_step s u) = CONFIGURED /\
   exists config value, s = Call (Configure config value) /\ recognized config) \/
  (state u = CONFIGURED /\ state (exec_step s u) = OPEN /\
   exists method, s = Call (Open method)) \/
  (state u = OPEN /\ state (exec_step s u) = CLOSED /\ s = Call Close).
Proof.
  destruct s as [e | |].
  - simpl. destruct (exec_summary e u) as [_ [H | [H | [H | H]]]].
    + left. apply H.
    + right. left. destruct H as (H1 & H2 & config & value & -> & Hc).
      split; [exact H1|]. split; [exact H2|]. exists config, value. split; [reflexivity | exact Hc].
    + right. right. left. destruct H as (H1 & H2 & _ & method & ->).
      split; [exact H1|]. split; [exact H2|]. exists method. reflexivity.
    + right. right. right. destruct H as (H1 & H2 & _ & ->).
      split; [exact H1|]. split; [exact H2 | reflexivity].
  - left. rewrite (proj1 (exec_step_turns u)). reflexivity.
  - left. rewrite (proj2 (exec_step_turns u)). reflexivity.
Qed.

(** X3: the identifier given to the constructor is never changed, by
    any schedule of calls, wake-ups, deliveries and loop turns. *)
Theorem uartId_immutable (id : Z) (ss : list step) :
  uartId (run_steps ss (constructor id)) = id.
Proof.
  change id with (uartId (constructor id)) at 2.
  generalize (constructor id). induction ss as [|s ss IH]; intros u; simpl.
  - reflexivity.
  - rewrite IH. destruct s as [e | |].
    + apply exec_summary.
    + rewrite (proj1 (exec_step_turns u)). reflexivity.
    + rewrite (proj2 (exec_step_turns u)). reflexivity.
Qed.

(** X4: the four configuration fields change only by a [configure]
    with one of the four parameters called in state CLOSED; every other
    step, and every step taken in state CONFIGURED or OPEN, leaves them
    as they are. *)
Theorem config_changes_only_when_closed (s : step) (u : UART) :
  same_config (exec_step s u) u \/
  (state u = CLOSED /\
   exists config value, s = Call (Configure config value) /\ recognized config).
Proof.
  destruct s as [e | |].
  - simpl. destruct (exec_summary e u) as [_ [H | [H | [H | H]]]].
    + left. apply H.
    + right. destruct H as (H1 & _ & config & value & -> & Hc).
      split; [exact H1|]. exists config, value. split; [reflexivity | exact Hc].
    + left. apply H.
    + left. apply H.
  - left. rewrite (proj1 (exec_step_turns u)). apply same_config_refl.
  - left. rewrite (proj2 (exec_step_turns u)). apply same_config_refl.
Qed.

(** Between two [close]s at most one [configure] gets through. *)
Lemma exec_step_one_configure (u0 v : UART) (s : step) :
  state u0 = CLOSED -> calls is_Close s = false ->
  (state v = CLOSED /\ same_config v u0) \/
  (state v <> CLOSED /\
   exists config value, recognized config /\
     same_config v (after (configure config value) u0)) ->
  (state (exec_step s v) = CLOSED /\ same_config (exec_step s v) u0) \/
  (state (exec_step s v) <> CLOSED /\
   exists config value, recognized config /\
     same_config (exec_step s v) (after (configure config value) u0)).
Proof.
  intros H0 Hs Hv. destruct s as [e | |].
  - simpl in Hs. simpl.
    destruct (exec_summary e v) as [_ [H | [H | [H | H]]]].
    + destruct H as [Hst Hcf]. destruct Hv as [[Hc Hu] | [Hc Hu]].
      * left. split; [congruence | exact (same_config_trans _ _ _ Hcf Hu)].
      * right. split; [congruence|].
        destruct Hu as (config & value & Hr & Hu).
        exists config, value. split; [exact Hr | exact (same_config_trans _ _ _ Hcf Hu)].
    + destruct H as (Hc & Hst & config & value & -> & Hr).
      destruct Hv as [[_ Hu] | [Hn _]]; [|contradiction].
      right. split; [simpl; simpl in Hst; congruence|].
      exists config, value. split; [exact Hr|].
      simpl. apply configure_same_config; assumption.
    + destruct H as (Hc & Hst & Hcf & _).
      destruct Hv as [[Hc' _] | [_ Hu]]; [congruence|].
      right. split; [congruence|].
      destruct Hu as (config & value & Hr & Hu).
      exists config, value. split; [exact Hr | exact (same_config_trans _ _ _ Hcf Hu)].
    + destruct H as (_ & _ & _ & ->). discriminate Hs.
  - rewrite (proj1 (exec_step_turns v)). exact Hv.
  - rewrite (proj2 (exec_step_turns v)). exact Hv.
Qed.

Lemma run_steps_one_configure (u0 : UART) (ss : list step) (v : UART) :
  state u0 = CLOSED ->
  forallb (fun s => negb (calls is_Close s)) ss = true ->
  (state v = CLOSED /\ same_config v u0) \/
  (state v <> CLOSED /\
   exists config value, recognized config /\
     same_config v (after (configure config value) u0)) ->
  (state (run_steps ss v) = CLOSED /\ same_config (run_steps ss v) u0) \/
  (state (run_steps ss v) <> CLOSED /\
   exists config value, recognized config /\
     same_config (run_steps ss v) (after (configure config value) u0)).
Proof.
  intros H0. revert v. induction ss as [|s ss IH]; intros v Hss Hv; simpl; [exact Hv|].
  simpl in Hss. apply andb_true_iff in Hss. destruct Hss as [Hs Hss].
  apply IH; [exact Hss|].
  apply exec_step_one_configure; [exact H0 | | exact Hv].
  destruct (calls is_Close s); [discriminate Hs | reflexivity].
Qed.

(** X5: from a CLOSED driver, over any schedule without a [close], at
    most one [configure] takes effect: the configuration at the end is
    the one at the start, or the one at the start with a single
    parameter set by one call. *)
Theorem one_configure_per_cycle (u : UART) (ss : list step) :
  state u = CLOSED ->
  forallb (fun s => negb (calls is_Close s)) ss = true ->
  same_config (run_steps ss u) u \/
  exists config value, recognized config /\
    same_config (run_steps ss u) (after (configure config value) u).
Proof.
  intros H0 Hss.
  destruct (run_steps_one_configure u ss u H0 Hss) as [[_ H] | [_ H]].
  - left. split; [exact H0 | apply same_config_refl].
  - left. exact H.
  - right. exact H.
Qed.

Lemma one_configure_per_cycle_witness :
  state (constructor 1) = CLOSED /\
  (same_config
     (run_steps [Call (Configure BAUD_RATE 115200); Call (Configure DATA_BITS 7);
                 Call (Open INTERRUPT); AsyncTurn; Call (Configure STOP_BITS 2)]
                (constructor 1))
     (constructor 1) \/
   exists config value, recognized config /\
     same_config
       (run_steps [Call (Configure BAUD_RATE 115200); Call (Configure DATA_BITS 7);
                   Call (Open INTERRUPT); AsyncTurn; Call (Configure STOP_BITS 2)]
                  (constructor 1))
       (after (configure config value) (constructor 1))).
Proof.
  split; [reflexivity|].
  apply (one_configure_per_cycle (constructor 1)); reflexivity.
Defined.

(** X6: a call that ends with an exception, and a [read] that is
    suspended, have changed no data member: every check comes before
    the first assignment. *)
Theorem failed_call_changes_nothing (e : event) (u : UART) :
  (exists x, ends e u = Throws x) \/ ends e u = Blocks ->
  exec e u = u.
Proof.
  intros H.
  assert (Hn : ends e u <> Returns tt /\ ends e u <> Undefined).
  { destruct H as [[x H] | H]; rewrite H; split; discriminate. }
  clear H. destruct Hn as [Hr Hu]. revert Hr Hu.
  destruct e as [config value | method | | length | length | data length | chunk];
    unfold ends, exec, after.
  - rewrite configure_eq. destruct (state u); simpl; try reflexivity.
    repeat match goal with
           | |- context [if ?c then _ else _] => destruct c
           end; simpl; intros Hr Hu; try reflexivity; contradiction Hr; reflexivity.
  - rewrite open_eq. destruct (state u); simpl; intros Hr Hu; try reflexivity.
    contradiction Hr. reflexivity.
  - rewrite close_eq. destruct (state u); simpl; intros Hr Hu; try reflexivity.
    contradiction Hr. reflexivity.
  - rewrite read_eq. destruct (state u); simpl; try reflexivity.
    destruct (commMethod u); simpl; [|reflexivity].
    rewrite read_wake_eq. destruct (dataReady u); [|reflexivity].
    cbv zeta. destruct (_ <? 0); simpl; intros Hr Hu; try reflexivity.
    contradiction Hr. reflexivity.
  - rewrite read_wake_eq. destruct (dataReady u); [|reflexivity].
    cbv zeta. destruct (_ <? 0); simpl; intros Hr Hu; try reflexivity.
    contradiction Hr. reflexivity.
  - rewrite write_eq. destruct (state u); reflexivity.
  - rewrite backend_deliver_eq. destruct chunk; [|destruct (_ && _)]; simpl;
      intros Hr Hu; try reflexivity; contradiction Hr; reflexivity.
Qed.

Lemma failed_call_changes_nothing_witness :
  ends (Configure STOP_BITS 2) (opened DMA) =
    Throws (runtime_error "UART must be closed before configuration.") /\
  exec (Configure STOP_BITS 2) (opened DMA) = opened DMA.
Proof.
  split; [reflexivity|].
  apply failed_call_changes_nothing. left.
  exists (runtime_error "UART must be closed before configuration."). reflexivity.
Defined.

(** X7: the exceptions of the driver, all of them.  [invalid_argument]
    comes only from a [configure] in state CLOSED with a parameter that
    is none of the four; in any other state [configure] reports the
    state, whatever the parameter.  [open] reports OPEN and CLOSED with
    different messages; [close], [read] and [write] report every state
    but OPEN with the same one.  A wake-up and a delivery never
    throw. *)
Theorem exception_table (e : event) (u : UART) (x : exn) :
  ends e u = Throws x ->
  (x = invalid_argument "Invalid UART configuration." /\ state u = CLOSED /\
   exists config value, e = Configure config value /\ ~ recognized config) \/
  (x = runtime_error "UART must be closed before configuration." /\
   state u <> CLOSED /\ exists config value, e = Configure config value) \/
  (x = runtime_error "UART is already open." /\ state u = OPEN /\
   exists method, e = Open method) \/
  (x = runtime_error "UART must be configured before opening." /\
   state u = CLOSED /\ exists method, e = Open method) \/
  (x = runtime_error "UART is not open." /\ state u <> OPEN /\
   (e = Close \/ (exists length, e = Read length) \/
    (exists data length, e = Write data length))).
Proof.
  destruct e as [config value | method | | length | length | data length | chunk];
    unfold ends.
  - destruct (state u) eqn:Es.
    + destruct (recognized_dec config) as [Hc | Hc].
      * rewrite (proj1 (configure_recognized config value u Es Hc)).
        simpl. discriminate.
      * rewrite (configure_default_branch config value u Es Hc). simpl.
        intros H. inversion H. left.
        split; [reflexivity|]. split; [reflexivity|].
        exists config, value. split; [reflexivity | exact Hc].
    + rewrite configure_eq, Es. simpl. intros H. inversion H. right. left.
      split; [reflexivity|]. split; [discriminate|].
      exists config, value. reflexivity.
    + rewrite configure_eq, Es. simpl. intros H. inversion H. right. left.
      split; [reflexivity|]. split; [discriminate|].
      exists config, value. reflexivity.
  - rewrite open_eq. destruct (state u) eqn:Es; simpl; intros H; inversion H.
    + right. right. right. left. repeat split. exists method. reflexivity.
    + right. right. left. repeat split. exists method. reflexivity.
  - rewrite close_eq. destruct (state u) eqn:Es; simpl; intros H; inversion H;
      right; right; right; right;
      (split; [reflexivity|]; split; [discriminate|]; left; reflexivity).
  - rewrite read_eq. destruct (state u) eqn:Es; simpl.
    + intros H; inversion H. right; right; right; right.
      split; [reflexivity|]. split; [discriminate|]. right. left.
      exists length. reflexivity.
    + destruct (commMethod u); simpl; [|discriminate].
      rewrite read_wake_eq. destruct (dataReady u); [|simpl; discriminate].
      cbv zeta. destruct (_ <? 0); simpl; discriminate.
    + intros H; inversion H. right; right; right; right.
      split; [reflexivity|]. split; [discriminate|]. right. left.
      exists length. reflexivity.
  - rewrite read_wake_eq. destruct (dataReady u); [|simpl; discriminate].
    cbv zeta. destruct (_ <? 0); simpl; discriminate.
  - rewrite write_eq. destruct (state u) eqn:Es; simpl; intros H; inversion H;
      right; right; right; right;
      (split; [reflexivity|]; split; [discriminate|]; right; right;
       exists data, length; reflexivity).
  - rewrite backend_deliver_eq. destruct chunk; [|destruct (_ && _)]; simpl; discriminate.
Qed.

Lemma exception_table_witness :
  ends (Configure 4 1) (constructor 1) =
    Throws (invalid_argument "Invalid UART configuration.") /\
  ((invalid_argument "Invalid UART configuration." =
      invalid_argument "Invalid UART configuration." /\
    state (constructor 1) = CLOSED /\
    exists config value, Configure 4 1 = Configure config value /\ ~ recognized config) \/
   (invalid_argument "Invalid UART configuration." =
      runtime_error "UART must be closed before configuration." /\
    state (constructor 1) <> CLOSED /\
    exists config value, Configure 4 1 = Configure config value) \/
   (invalid_argument "Invalid UART configuration." =
      runtime_error "UART is already open." /\ state (constructor 1) = OPEN /\
    exists method, Configure 4 1 = Open method) \/
   (invalid_argument "Invalid UART configuration." =
      runtime_error "UART must be configured before opening." /\
    state (constructor 1) = CLOSED /\ exists method, Configure 4 1 = Open method) \/
   (invalid_argument "Invalid UART configuration." =
      runtime_error "UART is not open." /\ state (constructor 1) <> OPEN /\
    (Configure 4 1 = Close \/ (exists length, Configure 4 1 = Read length) \/
     (exists data length, Configure 4 1 = Write data length)))).
Proof.
  split; [reflexivity|].
  apply (exception_table (Configure 4 1) (constructor 1)). reflexivity.
Defined.

Lemma run_steps_keeps_buffer (ss : list step) (u : UART) :
  forallb in_source ss = true -> dataReady u = false ->
  dataReady (run_steps ss u) = false /\
  readBuffer (run_steps ss u) = readBuffer u.
Proof.
  revert u. induction ss as [|s ss IH]; intros u Hss Hr; simpl.
  - split; [exact Hr | reflexivity].
  - simpl in Hss. apply andb_true_iff in Hss. destruct Hss as [Hs Hss].
    destruct s as [e | |].
    + unfold in_source in Hs. simpl in Hs.
      assert (He : is_Deliver e = false) by (destruct (is_Deliver e); [discriminate Hs | reflexivity]).
      destruct (exec_keeps_buffer e u He Hr) as [Hr' Hb'].
      destruct (IH (exec e u) Hss Hr') as [H1 H2].
      simpl. split; [exact H1 | congruence].
    + rewrite (proj1 (exec_step_turns u)). apply IH; assumption.
    + rewrite (proj2 (exec_step_turns u)). apply IH; assumption.
Qed.

(** C8, amended: when [close] is called while a [read] is suspended
    waiting for data, [close] returns with the state CLOSED and does not
    release the reader: [dataReady] is still false, and no call, wake-up
    or turn of the background loops that follows sets it, so at every
    wake-up before a delivery the reader is suspended again.  A
    suspended reader that finds [dataReady] set does not look at the
    state again: for a count that is not negative it returns the first
    min(length, available) buffered bytes and their number, whatever
    the state is.  It never ends with an exception. *)
Theorem close_leaves_reader_blocked (u : UART) (length : Z) :
  state u = OPEN -> commMethod u <> None -> dataReady u = false ->
  read length u = (Blocks, u) /\
  close u = (Returns tt, set_state CLOSED u) /\
  (forall ss, forallb in_source ss = true ->
     read_wake length (run_steps ss (set_state CLOSED u)) =
     (Blocks, run_steps ss (set_state CLOSED u))) /\
  (forall v, dataReady v = true -> 0 <= length ->
     Z.of_nat (List.length (readBuffer v)) <= INT_MAX ->
     read_wake length v =
     (Returns (Z.min length (Z.of_nat (List.length (readBuffer v))),
               firstn (Z.to_nat (Z.min length (Z.of_nat (List.length (readBuffer v)))))
                      (readBuffer v)),
      set_dataReady false
        (set_readBuffer
           (skipn (Z.to_nat (Z.min length (Z.of_nat (List.length (readBuffer v)))))
                  (readBuffer v)) v))) /\
  (forall v e, fst (read_wake length v) <> Throws e).
Proof.
  intros Hs Hc Hr. split; [|split; [|split; [|split]]].
  - rewrite read_eq, Hs. destruct (commMethod u); [|contradiction Hc; reflexivity].
    rewrite read_wake_eq, Hr. reflexivity.
  - rewrite close_eq, Hs. reflexivity.
  - intros ss Hss.
    destruct (run_steps_keeps_buffer ss (set_state CLOSED u) Hss Hr) as [Hd _].
    rewrite read_wake_eq, Hd. reflexivity.
  - intros v Hv Hl Hb. apply read_wake_ready; assumption.
  - intros v e. rewrite read_wake_eq. destruct (dataReady v); [|simpl; discriminate].
    cbv zeta. destruct (_ <? 0); simpl; discriminate.
Qed.

Lemma close_leaves_reader_blocked_witness :
  dataReady (opened DMA) = false /\
  read 10 (opened DMA) = (Blocks, opened DMA) /\
  close (opened DMA) = (Returns tt, set_state CLOSED (opened DMA)) /\
  (forall ss, forallb in_source ss = true ->
     read_wake 10 (run_steps ss (set_state CLOSED (opened DMA))) =
     (Blocks, run_steps ss (set_state CLOSED (opened DMA)))) /\
  (forall v, dataReady v = true -> 0 <= 10 ->
     Z.of_nat (List.length (readBuffer v)) <= INT_MAX ->
     read_wake 10 v =
     (Returns (Z.min 10 (Z.of_nat (List.length (readBuffer v))),
               firstn (Z.to_nat (Z.min 10 (Z.of_nat (List.length (readBuffer v)))))
                      (readBuffer v)),
      set_dataReady false
        (set_readBuffer
           (skipn (Z.to_nat (Z.min 10 (Z.of_nat (List.length (readBuffer v)))))
                  (readBuffer v)) v))) /\
  (forall v e, fst (read_wake 10 v) <> Throws e).
Proof.
  split; [reflexivity|].
  apply (close_leaves_reader_blocked (opened DMA) 10).
  - reflexivity.
  - simpl. discriminate.
  - reflexivity.
Defined.

(** X8: no code of the source sets [dataReady] or puts a byte into
    [readBuffer].  Over every schedule of calls, wake-ups and turns of
    the loops of [asyncRead] and [dmaRead] (everything but a delivery by
    the hardware, which the source leaves open), a new driver keeps
    [dataReady] false and the buffer empty, so no [read] and no wake-up
    of a suspended reader ever returns. *)
Theorem source_never_signals_data (id : Z) (ss : list step) :
  forallb in_source ss = true ->
  dataReady (run_steps ss (constructor id)) = false /\
  readBuffer (run_steps ss (constructor id)) = [] /\
  (forall length r,
     fst (read length (run_steps ss (constructor id))) <> Returns r) /\
  (forall length r,
     fst (read_wake length (run_steps ss (constructor id))) <> Returns r).
Proof.
  intros Hss.
  destruct (run_steps_keeps_buffer ss (constructor id) Hss eq_refl) as [Hr Hb].
  split; [exact Hr|]. split; [exact Hb|].
  assert (Hw : forall length r,
             fst (read_wake length (run_steps ss (constructor id))) <> Returns r).
  { intros length r. rewrite read_wake_eq, Hr. simpl. discriminate. }
  split; [|exact Hw].
  intros length r. rewrite read_eq.
  destruct (state (run_steps ss (constructor id))); simpl; try discriminate.
  destruct (commMethod (run_steps ss (constructor id))); [apply Hw | simpl; discriminate].
Qed.

Lemma source_never_signals_data_witness :
  dataReady
    (run_steps [Call (Configure BAUD_RATE 115200); Call (Open INTERRUPT); AsyncTurn;
                Call (Read 10); AsyncTurn; Call (Wake 10); Call Close; AsyncTurn]
               (constructor 1)) = false /\
  readBuffer
    (run_steps [Call (Configure BAUD_RATE 115200); Call (Open INTERRUPT); AsyncTurn;
                Call (Read 10); AsyncTurn; Call (Wake 10); Call Close; AsyncTurn]
               (constructor 1)) = [] /\
  (forall length r,
     fst (read length
            (run_steps [Call (Configure BAUD_RATE 115200); Call (Open INTERRUPT);
                        AsyncTurn; Call (Read 10); AsyncTurn; Call (Wake 10);
                        Call Close; AsyncTurn]
                       (constructor 1))) <> Returns r) /\
  (forall length r,
     fst (read_wake length
            (run_steps [Call (Configure BAUD_RATE 115200); Call (Open INTERRUPT);
                        AsyncTurn; Call (Read 10); AsyncTurn; Call (Wake 10);
                        Call Close; AsyncTurn]
                       (constructor 1))) <> Returns r).
Proof.
  apply (source_never_signals_data 1
           [Call (Configure BAUD_RATE 115200); Call (Open INTERRUPT); AsyncTurn;
            Call (Read 10); AsyncTurn; Call (Wake 10); Call Close; AsyncTurn]).
  reflexivity.
Defined.

(** X9: [read] never uses [commMethod] before [open] has assigned it.
    On every object a schedule reaches from a new driver, a [read] with
    a count that is not negative (and a buffer within [int]) throws, is
    suspended or returns: its behaviour is defined. *)
Theorem read_defined_on_reachable (id : Z) (ss : list step) (length : Z) :
  0 <= length ->
  Z.of_nat (List.length (readBuffer (run_steps ss (constructor id)))) <= INT_MAX ->
  fst (read length (run_steps ss (constructor id))) <> Undefined.
Proof.
  intros Hl Hb.
  destruct (run_steps_well_formed ss (constructor id) (constructor_well_formed id))
    as [Hm _].
  rewrite read_eq.
  destruct (state (run_steps ss (constructor id))) eqn:Es; simpl; try discriminate.
  destruct (commMethod (run_steps ss (constructor id))); [|contradiction Hm; reflexivity].
  rewrite read_wake_eq.
  destruct (dataReady (run_steps ss (constructor id))); [|simpl; discriminate].
  cbv zeta. rewrite static_cast_int_small by lia.
  destruct (_ <? 0) eqn:En; [|simpl; discriminate].
  apply Z.ltb_lt in En. lia.
Qed.

Lemma read_defined_on_reachable_witness :
  0 <= 10 /\
  fst (read 10 (run_steps [Call (Configure PARITY 1); Call (Open DMA); DmaTurn;
                           Call (Deliver [x48; x69]); Call Close;
                           Call (Configure BAUD_RATE 4800); Call (Open POLLING)]
                          (constructor 1))) <> Undefined.
Proof.
  split; [lia|].
  apply (read_defined_on_reachable 1
           [Call (Configure PARITY 1); Call (Open DMA); DmaTurn;
            Call (Deliver [x48; x69]); Call Close;
            Call (Configure BAUD_RATE 4800); Call (Open POLLING)] 10).
  - lia.
  - vm_compute. discriminate.
Defined.

(** X10: a [read] of zero bytes on an open driver whose data is ready
    returns 0 and takes nothing from the buffer, yet clears
    [dataReady]: the notification is used up without a byte read. *)
Theorem read_zero_consumes_signal (u : UART) :
  state u = OPEN -> commMethod u <> None -> dataReady u = true ->
  Z.of_nat (List.length (readBuffer u)) <= INT_MAX ->
  read 0 u = (Returns (0, []), set_dataReady false u) /\
  readBuffer (set_dataReady false u) = readBuffer u /\
  read 0 (set_dataReady false u) = (Blocks, set_dataReady false u).
Proof.
  intros Hs Hc Hr Hb.
  pose proof (read_ready u 0 Hs Hc Hr (Z.le_refl 0) Hb) as H. cbv zeta in H.
  rewrite Z.min_l in H by lia. simpl in H.
  split; [|split].
  - rewrite H. destruct u; reflexivity.
  - reflexivity.
  - rewrite read_eq. simpl. rewrite Hs.
    destruct (commMethod u); [|contradiction Hc; reflexivity].
    rewrite read_wake_eq. reflexivity.
Qed.

Lemma read_zero_consumes_signal_witness :
  dataReady received = true /\
  read 0 received = (Returns (0, []), set_dataReady false received) /\
  readBuffer (set_dataReady false received) = readBuffer received /\
  read 0 (set_dataReady false received) = (Blocks, set_dataReady false received).
Proof.
  split; [reflexivity|].
  apply (read_zero_consumes_signal received).
  - reflexivity.
  - simpl. discriminate.
  - reflexivity.
  - vm_compute. discriminate.
Defined.

(** X11: a [read] with a negative count on an open driver whose data is
    ready has no defined behaviour: the minimum is negative and
    [readBuffer.begin() + bytesRead] leaves the buffer. *)
Theorem read_negative_length_undefined (u : UART) (length : Z) :
  state u = OPEN -> commMethod u <> None -> dataReady u = true ->
  length < 0 ->
  fst (read length u) = Undefined.
Proof.
  intros Hs Hc Hr Hl. rewrite read_eq, Hs.
  destruct (commMethod u); [|contradiction Hc; reflexivity].
  rewrite read_wake_eq, Hr. cbv zeta.
  destruct (_ <? 0) eqn:En; [reflexivity|].
  apply Z.ltb_ge in En. lia.
Qed.

Lemma read_negative_length_undefined_witness :
  -1 < 0 /\ fst (read (-1) received) = Undefined.
Proof.
  split; [lia|].
  apply (read_negative_length_undefined received (-1)).
  - reflexivity.
  - simpl. discriminate.
  - reflexivity.
  - lia.
Defined.

(** X12: [close] does not lead back to CONFIGURED.  After [open] and
    [close] the configuration is the one set before, but the state is
    CLOSED, so an [open] that follows at once is rejected with "UART
    must be configured before opening.", and it is accepted after one
    more [configure]. *)
Theorem close_requires_reconfigure (u : UART) (method : CommMethod) :
  state u = CONFIGURED ->
  state (run [Open method; Close] u) = CLOSED /\
  same_config (run [Open method; Close] u) u /\
  (forall method',
     open method' (run [Open method; Close] u) =
     (Throws (runtime_error "UART must be configured before opening."),
      run [Open method; Close] u)) /\
  (forall config value method', recognized config ->
     state (run [Open method; Close; Configure config value; Open method'] u) = OPEN).
Proof.
  intros Hs.
  assert (Hrun : run [Open method; Close] u
                 = set_state CLOSED (set_commMethod method (set_state OPEN u))).
  { unfold run, exec, after. rewrite open_eq, Hs. cbn [snd]. rewrite close_eq. reflexivity. }
  split; [rewrite Hrun; reflexivity|].
  split; [rewrite Hrun; repeat split|].
  split.
  - intros method'. rewrite Hrun, open_eq. reflexivity.
  - intros config value method' Hc.
    change (run [Open method; Close; Configure config value; Open method'] u)
      with (run [Configure config value; Open method'] (run [Open method; Close] u)).
    rewrite Hrun. simpl. unfold after. rewrite configure_eq. simpl.
    destruct Hc as [-> | [-> | [-> | ->]]]; reflexivity.
Qed.

Lemma close_requires_reconfigure_witness :
  state (exec (Configure PARITY 1) (constructor 1)) = CONFIGURED /\
  state (run [Open DMA; Close] (exec (Configure PARITY 1) (constructor 1))) = CLOSED /\
  same_config (run [Open DMA; Close] (exec (Configure PARITY 1) (constructor 1)))
              (exec (Configure PARITY 1) (constructor 1)) /\
  (forall method',
     open method' (run [Open DMA; Close] (exec (Configure PARITY 1) (constructor 1))) =
     (Throws (runtime_error "UART must be configured before opening."),
      run [Open DMA; Close] (exec (Configure PARITY 1) (constructor 1)))) /\
  (forall config value method', recognized config ->
     state (run [Open DMA; Close; Configure config value; Open method']
                (exec (Configure PARITY 1) (constructor 1))) = OPEN).
Proof.
  split; [reflexivity|].
  apply (close_requires_reconfigure (exec (Configure PARITY 1) (constructor 1)) DMA).
  reflexivity.
Defined.
